(** * Job-portal backend: company controller, authentication gate and route tables

    A shallow embedding of the Express handlers of the company controller
    (registerCompany, getCompany, getCompanyById, updateCompany), of the
    route tables that mount them, and of the authentication gate the tables
    put in front of every handler.

    An async handler is a computation in a state-and-exception monad: the
    state holds the document store, the response object of the request, the
    server console and a record of the model calls that were made; a thrown
    value or a rejected awaited promise is the [Throw] completion, which
    [try_catch] intercepts the way the handlers' try/catch blocks do. *)

From Stdlib Require Import ZArith String List Bool DecimalString.
Import ListNotations.

Set Warnings "-register-all".

Open Scope string_scope.
Open Scope list_scope.
Open Scope Z_scope.

(** ** JavaScript values *)

Module Js.

(** The values a request, a document or a token payload is made of.  A number
    is an integer here: truthiness, the only thing the handlers ask of a
    number, separates zero from the rest.  [VHost] is a function or a host
    object known by name (res, console, a model). *)
Inductive JsVal : Type :=
| VUndef
| VNull
| VBool (b : bool)
| VNum (n : Z)
| VStr (s : string)
| VArr (items : list JsVal)
| VObj (fields : list (string * JsVal))
| VHost (tag : string).

(** ToBoolean: undefined, null, false, 0 and the empty string are falsy;
    every array and every object is truthy, the empty ones included. *)
Definition truthy (v : JsVal) : bool :=
  match v with
  | VUndef | VNull => false
  | VBool b => b
  | VNum n => negb (n =? 0)
  | VStr s => negb (String.eqb s "")
  | VArr _ | VObj _ | VHost _ => true
  end.

Fixpoint assoc {A : Type} (k : string) (kvs : list (string * A)) : option A :=
  match kvs with
  | [] => None
  | (k', v) :: rest => if String.eqb k k' then Some v else assoc k rest
  end.

(** An own property of an object literal, undefined when there is none. *)
Definition field (k : string) (fs : list (string * JsVal)) : JsVal :=
  match assoc k fs with
  | Some v => v
  | None => VUndef
  end.

(** What a handler can catch. [Raised] is a failure of a collaborator (the
    store, the token library) carrying whatever that collaborator threw.
    The message of an error names what went wrong; its wording is the
    engine's and nothing depends on it. *)
Inductive Thrown : Type :=
| TypeError (msg : string)
| ReferenceError (msg : string)
| HeadersSent
| Raised (reason : JsVal).

Inductive Completion (A : Type) : Type :=
| Normal (a : A)
| Throw (e : Thrown).
Arguments Normal {A} a.
Arguments Throw {A} e.

Definition cmap {A B : Type} (f : A -> B) (c : Completion A) : Completion B :=
  match c with
  | Normal a => Normal (f a)
  | Throw e => Throw e
  end.

(** [o.k] and the destructuring [const {k} = o]: a TypeError on undefined and
    null, the own property of an object, and undefined for the other values
    (none of the names the handlers read, companyName, name, description,
    website, location, id, token and userId, is a member of a primitive, of
    an array or of a function). *)
Definition prop (o : JsVal) (k : string) : Completion JsVal :=
  match o with
  | VUndef => Throw (TypeError ("Cannot read properties of undefined, reading " ++ k))
  | VNull => Throw (TypeError ("Cannot read properties of null, reading " ++ k))
  | VObj fs => Normal (field k fs)
  | _ => Normal VUndef
  end.

Fixpoint jsval_eqb (a b : JsVal) {struct a} : bool :=
  match a, b with
  | VUndef, VUndef => true
  | VNull, VNull => true
  | VBool x, VBool y => Bool.eqb x y
  | VNum x, VNum y => x =? y
  | VStr x, VStr y => String.eqb x y
  | VHost x, VHost y => String.eqb x y
  | VArr xs, VArr ys =>
      (fix items (l : list JsVal) (r : list JsVal) {struct l} : bool :=
         match l, r with
         | [], [] => true
         | x :: l', y :: r' => jsval_eqb x y && items l' r'
         | _, _ => false
         end) xs ys
  | VObj xs, VObj ys =>
      (fix fields (l : list (string * JsVal)) (r : list (string * JsVal)) {struct l} : bool :=
         match l, r with
         | [], [] => true
         | (k, x) :: l', (k', y) :: r' => String.eqb k k' && jsval_eqb x y && fields l' r'
         | _, _ => false
         end) xs ys
  | _, _ => false
  end.

End Js.
Import Js.

(** ** Requests and responses *)

(** The fields of the Express request the handlers and the gate read.
    [req_id] is the identity context: undefined until the gate assigns it. *)
Record Req : Type := mkReq {
  req_body : JsVal;
  req_params : JsVal;
  req_cookies : JsVal;
  req_id : JsVal;
  req_file : JsVal
}.

Definition set_id (req : Req) (v : JsVal) : Req :=
  {| req_body := req_body req; req_params := req_params req;
     req_cookies := req_cookies req; req_id := v; req_file := req_file req |}.

(** The request object as a value, for the one place that passes it on. *)
Definition req_obj (req : Req) : JsVal :=
  VObj [("body", req_body req); ("params", req_params req);
        ("cookies", req_cookies req); ("id", req_id req); ("file", req_file req)].

Record Response : Type := mkResponse {
  statusCode : Z;
  payload : JsVal
}.

Record Call : Type := mkCall {
  callee : string;
  arguments : list JsVal
}.

(** A stored document, and what the queries of a model answer with. *)
Definition Doc : Type := list (string * JsVal).

Definition doc_or_null (d : option Doc) : JsVal :=
  match d with
  | Some fs => VObj fs
  | None => VNull
  end.

Definition arg (i : nat) (args : list JsVal) : JsVal := nth i args VUndef.

(** ** The store behind a Mongoose model

    The operations of Mongoose's Model that the controller names, over a
    store of type [DB].  A query can reject; find answers with an array of
    documents, findOne and findById with a document or null; only create and
    findByIdAndUpdate write. *)
Record Backend (DB : Type) : Type := mkBackend {
  find : JsVal -> DB -> Completion (list Doc);
  findOne : JsVal -> DB -> Completion (option Doc);
  findById : JsVal -> DB -> Completion (option Doc);
  findByIdAndUpdate : JsVal -> JsVal -> JsVal -> DB -> Completion (option Doc) * DB;
  create : JsVal -> DB -> Completion Doc * DB
}.
Arguments find {DB} _ _ _.
Arguments findOne {DB} _ _ _.
Arguments findById {DB} _ _ _.
Arguments findByIdAndUpdate {DB} _ _ _ _ _.
Arguments create {DB} _ _ _.

(** An awaited call of a model method: the value the promise settles with
    and the store afterwards. *)
Definition Method (DB : Type) : Type := list JsVal -> DB -> Completion JsVal * DB.

(** A model object: its callable members by name. *)
Definition ModelObj (DB : Type) : Type := string -> option (Method DB).

(** The model that company.model.js exports, mongoose.model over the company
    schema (the file is not among the sources; the store behind it is the
    parameter [B]).  Its callable members are Mongoose's statics, of which
    the controller names find, findById, findByIdAndUpdate and create;
    findOne is the lookup by filter, which backend/DETAILED_REQUEST_FLOW.md
    lists among a model's methods.  Mongoose has no static called finOne;
    that name, like every name outside the five, is answered with
    undefined. *)
Definition mongoose_model {DB : Type} (B : Backend DB) : ModelObj DB :=
  fun name =>
    if String.eqb name "find" then
      Some (fun args d => (cmap (fun l => VArr (map VObj l)) (find B (arg 0 args) d), d))
    else if String.eqb name "findOne" then
      Some (fun args d => (cmap doc_or_null (findOne B (arg 0 args) d), d))
    else if String.eqb name "findById" then
      Some (fun args d => (cmap doc_or_null (findById B (arg 0 args) d), d))
    else if String.eqb name "findByIdAndUpdate" then
      Some (fun args d =>
              let (r, d') := findByIdAndUpdate B (arg 0 args) (arg 1 args) (arg 2 args) d in
              (cmap doc_or_null r, d'))
    else if String.eqb name "create" then
      Some (fun args d => let (r, d') := create B (arg 0 args) d in (cmap VObj r, d'))
    else None.

(** A model object with one more member (used to exercise code that the
    exported model cannot reach). *)
Definition with_member {DB : Type} (name : string) (m : Method DB) (o : ModelObj DB) : ModelObj DB :=
  fun k => if String.eqb k name then Some m else o k.

(** ** A reference store: a collection held in memory *)

Module Mem.

Record Store : Type := mkStore {
  docs : list Doc;
  online : bool;
  serial : nat
}.

Definition unavailable {A : Type} : Completion A :=
  Throw (Raised (VStr "MongoNetworkError")).

(** A filter selects the documents that carry each of its fields. *)
Definition matches (filter : JsVal) (d : Doc) : bool :=
  match filter with
  | VObj fs => forallb (fun kv => jsval_eqb (field (fst kv) d) (snd kv)) fs
  | _ => true
  end.

Definition object_id (n : nat) : JsVal :=
  VStr (NilEmpty.string_of_uint (Nat.to_uint n)).

Definition mem_find (filter : JsVal) (s : Store) : Completion (list Doc) :=
  if online s then Normal (List.filter (matches filter) (docs s)) else unavailable.

Definition mem_findOne (filter : JsVal) (s : Store) : Completion (option Doc) :=
  if online s then Normal (List.find (matches filter) (docs s)) else unavailable.

Definition mem_findById (id : JsVal) (s : Store) : Completion (option Doc) :=
  mem_findOne (VObj [("_id", id)]) s.

Definition mem_create (o : JsVal) (s : Store) : Completion Doc * Store :=
  if online s then
    match o with
    | VObj fs =>
        let d := ("_id", object_id (serial s)) :: fs in
        (Normal d, {| docs := docs s ++ [d]; online := true; serial := S (serial s) |})
    | _ => (Throw (Raised (VStr "ObjectParameterError")), s)
    end
  else (unavailable, s).

(** Overwrite in [d] the fields that the update gives a value. *)
Fixpoint patch (upd : list (string * JsVal)) (d : Doc) : Doc :=
  match upd with
  | [] => d
  | (k, VUndef) :: rest => patch rest d
  | (k, v) :: rest =>
      patch rest
        (match assoc k d with
         | Some _ => map (fun kv => if String.eqb (fst kv) k then (k, v) else kv) d
         | None => d ++ [(k, v)]
         end)
  end.

Definition mem_findByIdAndUpdate (id upd opts : JsVal) (s : Store)
  : Completion (option Doc) * Store :=
  if online s then
    match List.find (matches (VObj [("_id", id)])) (docs s) with
    | None => (Normal None, s)
    | Some old =>
        let new := match upd with VObj fs => patch fs old | _ => old end in
        let answer := if truthy (match prop opts "new" with Normal v => v | Throw _ => VUndef end)
                      then new else old in
        (Normal (Some answer),
         {| docs := map (fun d => if matches (VObj [("_id", id)]) d then new else d) (docs s);
            online := true; serial := serial s |})
    end
  else (unavailable, s).

Definition backend : Backend Store :=
  {| find := mem_find; findOne := mem_findOne; findById := mem_findById;
     findByIdAndUpdate := mem_findByIdAndUpdate; create := mem_create |}.

End Mem.

(** ** The server: state, effects, handlers *)

Section Server.

Variable DB : Type.

(** What a handler run can change: the store, the response object of the
    request (res.statusCode, 200 until res.status sets it, and the body
    res.json wrote, if any), the server console, and the model calls made so
    far (kept for the proofs; the code has no such record). *)
Record World : Type := mkWorld {
  db : DB;
  res_statusCode : Z;
  sent : option Response;
  console : list Thrown;
  calls : list Call
}.

Definition fresh (d : DB) : World :=
  {| db := d; res_statusCode := 200; sent := None; console := []; calls := [] |}.

Definition M (A : Type) : Type := World -> Completion A * World.

Definition ret {A : Type} (a : A) : M A := fun w => (Normal a, w).

Definition bind {A B : Type} (m : M A) (k : A -> M B) : M B :=
  fun w =>
    match m w with
    | (Normal a, w') => k a w'
    | (Throw e, w') => (Throw e, w')
    end.

Definition throw {A : Type} (e : Thrown) : M A := fun w => (Throw e, w).

Definition lift {A : Type} (c : Completion A) : M A := fun w => (c, w).

(** try { body } catch (error) { handler } *)
Definition try_catch {A : Type} (body : M A) (handler : Thrown -> M A) : M A :=
  fun w =>
    match body w with
    | (Normal a, w') => (Normal a, w')
    | (Throw e, w') => handler e w'
    end.

Notation "x <- c1 ;; c2" := (bind c1 (fun x => c2))
  (at level 61, c1 at next level, right associativity).
Notation "c1 ;; c2" := (bind c1 (fun _ => c2))
  (at level 61, right associativity).

(** res.status(code) *)
Definition res_status (code : Z) : M unit :=
  fun w => (Normal tt,
            {| db := db w; res_statusCode := code; sent := sent w;
               console := console w; calls := calls w |}).

(** res.json(body): writes the body under the current status; Express
    refuses a second write on the same response. *)
Definition res_json (body : JsVal) : M unit :=
  fun w =>
    match sent w with
    | Some _ => (Throw HeadersSent, w)
    | None =>
        (Normal tt,
         {| db := db w; res_statusCode := res_statusCode w;
            sent := Some {| statusCode := res_statusCode w; payload := body |};
            console := console w; calls := calls w |})
    end.

(** console.log(error) *)
Definition console_log (e : Thrown) : M unit :=
  fun w => (Normal tt,
            {| db := db w; res_statusCode := res_statusCode w; sent := sent w;
               console := console w ++ [e]; calls := calls w |}).

Definition get_prop (o : JsVal) (k : string) : M JsVal := lift (prop o k).

(** await obj.name(args): the arguments are evaluated first; a member that is
    not a function cannot be called (TypeError); otherwise the method runs
    against the store, and the awaited promise either yields its value or
    throws its rejection. *)
Definition invoke (obj : ModelObj DB) (objname name : string) (args : M (list JsVal)) : M JsVal :=
  vs <- args ;;
  match obj name with
  | None => throw (TypeError (objname ++ "." ++ name ++ " is not a function"))
  | Some method =>
      fun w =>
        let (r, d) := method vs (db w) in
        (r, {| db := d; res_statusCode := res_statusCode w; sent := sent w;
               console := console w;
               calls := calls w ++ [{| callee := name; arguments := vs |}] |})
  end.

(** Reading an identifier: its binding in the enclosing scopes, or a
    ReferenceError when no scope declares it. *)
Definition ident (scope : list (string * JsVal)) (x : string) : M JsVal :=
  match assoc x scope with
  | Some v => ret v
  | None => throw (ReferenceError (x ++ " is not defined"))
  end.

(** *** The company controller *)

Section Controller.

(** import {Company} from "../models/company.model.js" *)
Variable Company : ModelObj DB.

Definition message (text : string) (success : bool) : JsVal :=
  VObj [("message", VStr text); ("success", VBool success)].

Definition registerCompany (req : Req) : M unit :=
  try_catch
    (companyName <- get_prop (req_body req) "companyName" ;;
     if negb (truthy companyName) then
       res_status 400 ;;
       res_json (message "Company name is required" false)
     else
       company <- invoke Company "Company" "finOne" (ret [VObj [("name", companyName)]]) ;;
       if truthy company then
         res_status 400 ;;
         res_json (message "You cann't register same company" false)
       else
         company <- invoke Company "Company" "create"
                      (ret [VObj [("name", companyName); ("userId", req_id req)]]) ;;
         res_status 201 ;;
         res_json (VObj [("message", VStr "Company registered successfully");
                         ("company", company);
                         ("success", VBool true)]))
    (fun error => console_log error).

Definition getCompany (req : Req) : M unit :=
  try_catch
    (let userId := req_id req in
     companies <- invoke Company "Company" "find" (ret [VObj [("userId", userId)]]) ;;
     if negb (truthy companies) then
       res_status 404 ;;
       res_json (message "Company not found" false)
     else ret tt)
    (fun error => console_log error).

Definition getCompanyById (req : Req) : M unit :=
  try_catch
    (companyId <- get_prop (req_params req) "id" ;;
     company <- invoke Company "Company" "findById" (ret [companyId]) ;;
     if negb (truthy company) then
       res_status 404 ;;
       res_json (message "Company not found" false)
     else
       res_status 200 ;;
       res_json (VObj [("company", company); ("success", VBool true)]))
    (fun error => console_log error).

(** The names bound where updateCompany evaluates the arguments of its model
    call: the function's parameters and the constants declared above the
    call, the module's import and its four exported functions, then the
    members of Node's global object.  (company, declared by the statement
    itself, is not initialised yet.) *)
Definition node_globals : list (string * JsVal) :=
  map (fun x => (x, VHost x))
    ["globalThis"; "global"; "console"; "process"; "Buffer"; "URL";
     "setTimeout"; "setInterval"; "setImmediate"; "clearTimeout";
     "clearInterval"; "clearImmediate"; "queueMicrotask"; "structuredClone";
     "fetch"; "performance"; "Object"; "Function"; "Array"; "String";
     "Number"; "Boolean"; "Symbol"; "Promise"; "Error"; "TypeError";
     "ReferenceError"; "JSON"; "Math"; "Date"; "RegExp"; "Map"; "Set";
     "undefined"; "NaN"; "Infinity"].

Definition updateCompany_scope (req : Req) (name description website location file updatedData : JsVal)
  : list (string * JsVal) :=
  [("req", req_obj req); ("res", VHost "res");
   ("name", name); ("description", description);
   ("website", website); ("location", location);
   ("file", file); ("updatedData", updatedData);
   ("Company", VHost "Company");
   ("registerCompany", VHost "registerCompany"); ("getCompany", VHost "getCompany");
   ("getCompanyById", VHost "getCompanyById"); ("updateCompany", VHost "updateCompany")]
  ++ node_globals.

(** The argument list (req,params.id,updatedData,{new: true}), left to right.
    Its identifiers are looked up in the scope by name, the way the engine
    resolves them, because one of them has no declaration to bind it to. *)
Definition updateCompany_args (scope : list (string * JsVal)) : M (list JsVal) :=
  a0 <- ident scope "req" ;;
  params <- ident scope "params" ;;
  a1 <- get_prop params "id" ;;
  a2 <- ident scope "updatedData" ;;
  ret [a0; a1; a2; VObj [("new", VBool true)]].

(** What follows the model call: the not-found reply and the success reply. *)
Definition updateCompany_reply (company : JsVal) : M unit :=
  if negb (truthy company) then
    res_status 404 ;;
    res_json (message "Company not found" false)
  else
    res_status 404 ;;
    res_json (message "Company information updated" true).

Definition updateCompany (req : Req) : M unit :=
  try_catch
    (name <- get_prop (req_body req) "name" ;;
     description <- get_prop (req_body req) "description" ;;
     website <- get_prop (req_body req) "website" ;;
     location <- get_prop (req_body req) "location" ;;
     let file := req_file req in
     let updatedData := VObj [("name", name); ("description", description);
                              ("website", website); ("location", location)] in
     company <- invoke Company "Company" "findByIdAndUpdate"
                  (updateCompany_args
                     (updateCompany_scope req name description website location file updatedData)) ;;
     updateCompany_reply company)
    (fun error => console_log error).

End Controller.

(** *** Middleware chains and the authentication gate *)

(** How a layer of a route ends: it called next() (the request as the layer
    left it goes to the following layer) or it did not. *)
Inductive Flow : Type :=
| Next (req : Req)
| Halt.

Definition Middleware : Type := Req -> M Flow.

(** A controller function (req, res): it is handed no next, so the chain
    ends with it. *)
Definition endpoint (h : Req -> M unit) : Middleware :=
  fun req => h req ;; ret Halt.

Record Layer : Type := mkLayer {
  layer_name : string;
  layer_fn : Middleware
}.

Inductive Verb : Type := GET | POST | PUT.

Record Route : Type := mkRoute {
  verb : Verb;
  path : string;
  stack : list Layer
}.

(** Express runs the layers of a matched route in the order they were given,
    each one only when the one before it called next().  The first component
    lists the layers that were entered, with the request each received. *)
Fixpoint dispatch (layers : list Layer) (req : Req) (w : World)
  : list (string * Req) * (Completion unit * World) :=
  match layers with
  | [] => ([], (Normal tt, w))
  | l :: rest =>
      match layer_fn l req w with
      | (Normal (Next req'), w') =>
          let (entered, out) := dispatch rest req' w' in
          ((layer_name l, req) :: entered, out)
      | (Normal Halt, w') => ([(layer_name l, req)], (Normal tt, w'))
      | (Throw e, w') => ([(layer_name l, req)], (Throw e, w'))
      end
  end.

Section Gate.

(** jwt.verify(token, secret) of the jsonwebtoken library: the decoded
    payload, or a throw for a token that is expired, malformed or tampered
    with; and process.env.SECRET_KEY. *)
Variable jwt_verify : JsVal -> JsVal -> Completion JsVal.
Variable SECRET_KEY : JsVal.

(** Modelled from the spec: middlewares/isAuthenticated.js is not among the
    sources.  The definition follows the gate of spec section 4.3 (read the
    token from the cookie; absent: rejected; verification fails: rejected;
    success: attach the decoded subject identifier to the request and
    proceed), statement by statement as backend/DETAILED_REQUEST_FLOW.md
    quotes the middleware: req.cookies.token, the 401 replies, jwt.verify,
    req.id = decode.userId, next().  The catch clause is not quoted; it is
    taken to log the error as every handler of the repository does, and, the
    rejection being terminal, not to call next. *)
Definition isAuthenticated : Middleware :=
  fun req =>
    try_catch
      (token <- get_prop (req_cookies req) "token" ;;
       if negb (truthy token) then
         res_status 401 ;;
         res_json (message "user not authenticated" false) ;;
         ret Halt
       else
         decode <- lift (jwt_verify token SECRET_KEY) ;;
         if negb (truthy decode) then
           res_status 401 ;;
           res_json (message "Invalid token" false) ;;
           ret Halt
         else
           userId <- get_prop decode "userId" ;;
           ret (Next (set_id req userId)))
      (fun error => console_log error ;; ret Halt).

(** The request passed the gate: its cookie carries a token that jwt.verify
    accepts, and [req'] is the request with the token's userId as req.id. *)
Definition admitted (req req' : Req) : Prop :=
  exists token decode userId,
    prop (req_cookies req) "token" = Normal token /\
    truthy token = true /\
    jwt_verify token SECRET_KEY = Normal decode /\
    truthy decode = true /\
    prop decode "userId" = Normal userId /\
    req' = set_id req userId.

(** *** The route tables *)

Section Routes.

(** The controllers the route files import (none of the three files is
    given a controller by name here: a table is a function of its imports). *)
Variables h_registerCompany h_updateCompany h_getCompanyById h_getCompany : Req -> M unit.
Variables h_postjob h_getAdminJobs h_getJobById h_getAllJobs : Req -> M unit.
Variables h_applyJob h_getAppliedJobs h_getApplicants h_updateStatus : Req -> M unit.

Definition gate : Layer :=
  {| layer_name := "isAuthenticated"; layer_fn := isAuthenticated |}.

Definition controller (name : string) (h : Req -> M unit) : Layer :=
  {| layer_name := name; layer_fn := endpoint h |}.

(** router.route(path).VERB(layers...) *)
Definition on (v : Verb) (p : string) (layers : list Layer) : Route :=
  {| verb := v; path := p; stack := layers |}.

(** routes/company.route.js *)
Definition company_router : list Route :=
  [ on POST "/register" [gate; controller "registerCompany" h_registerCompany];
    on POST "/update/:id" [gate; controller "updateCompany" h_updateCompany];
    on POST "/get/:id" [gate; controller "getCompanyById" h_getCompanyById];
    on GET "/get" [gate; controller "getCompany" h_getCompany] ].

(** The job route table, which the sources carry in the same file. *)
Definition job_router : list Route :=
  [ on POST "/post" [gate; controller "postjob" h_postjob];
    on PUT "/getAdminJobs" [gate; controller "getAdminJobs" h_getAdminJobs];
    on GET "/get/:id" [gate; controller "getJobById" h_getJobById];
    on GET "/get" [gate; controller "getAllJobs" h_getAllJobs] ].

(** routes/application.route.js *)
Definition application_router : list Route :=
  [ on GET "/apply/:id" [gate; controller "applyJob" h_applyJob];
    on PUT "/get" [gate; controller "getAppliedJobs" h_getAppliedJobs];
    on GET "/:id/applicants" [gate; controller "getApplicants" h_getApplicants];
    on POST "/status/:id/update" [gate; controller "updateStatus" h_updateStatus] ].

End Routes.
End Gate.

End Server.

Arguments mkWorld {DB} _ _ _ _ _.
Arguments db {DB} _.
Arguments res_statusCode {DB} _.
Arguments sent {DB} _.
Arguments console {DB} _.
Arguments calls {DB} _.
Arguments fresh {DB} _.
Arguments ret {DB A} _ _.
Arguments bind {DB A B} _ _ _.
Arguments throw {DB A} _ _.
Arguments lift {DB A} _ _.
Arguments try_catch {DB A} _ _ _.
Arguments res_status {DB} _ _.
Arguments res_json {DB} _ _.
Arguments console_log {DB} _ _.
Arguments get_prop {DB} _ _ _.
Arguments invoke {DB} _ _ _ _ _.
Arguments ident {DB} _ _ _.
Arguments registerCompany {DB} _ _ _.
Arguments getCompany {DB} _ _ _.
Arguments getCompanyById {DB} _ _ _.
Arguments updateCompany {DB} _ _ _.
Arguments updateCompany_args {DB} _ _.
Arguments updateCompany_reply {DB} _ _.
Arguments endpoint {DB} _ _ _.
Arguments mkLayer {DB} _ _.
Arguments layer_name {DB} _.
Arguments layer_fn {DB} _ _ _.
Arguments mkRoute {DB} _ _ _.
Arguments verb {DB} _.
Arguments path {DB} _.
Arguments stack {DB} _.
Arguments dispatch {DB} _ _ _.
Arguments isAuthenticated {DB} _ _ _ _.
Arguments gate {DB} _ _.
Arguments controller {DB} _ _.
Arguments on {DB} _ _ _.
Arguments company_router {DB} _ _ _ _ _ _.
Arguments job_router {DB} _ _ _ _ _ _.
Arguments application_router {DB} _ _ _ _ _ _.

(** ** Concrete requests and stores *)

Module Scenario.

Definition acme : Doc :=
  [("_id", VStr "1"); ("name", VStr "Acme"); ("userId", VStr "u1")].

Definition one_company : Mem.Store :=
  {| Mem.docs := [acme]; Mem.online := true; Mem.serial := 2 |}.

Definition no_company : Mem.Store :=
  {| Mem.docs := []; Mem.online := true; Mem.serial := 1 |}.

Definition store_down : Mem.Store :=
  {| Mem.docs := [acme]; Mem.online := false; Mem.serial := 2 |}.

(** The model the controller imports, over the reference store. *)
Definition Company : ModelObj Mem.Store := mongoose_model Mem.backend.

(** The same model with a member finOne that does what findOne does. *)
Definition Company_with_finOne : ModelObj Mem.Store :=
  with_member "finOne"
    (fun args d => (cmap doc_or_null (Mem.mem_findOne (arg 0 args) d), d))
    Company.

(** A request as it reaches a handler behind the gate for subject u1. *)
Definition request (body params : JsVal) : Req :=
  {| req_body := body; req_params := params;
     req_cookies := VObj [("token", VStr "token-of-u1")];
     req_id := VStr "u1"; req_file := VUndef |}.

(** The same request as the client sent it, before the gate. *)
Definition incoming (body params : JsVal) : Req :=
  {| req_body := body; req_params := params;
     req_cookies := VObj [("token", VStr "token-of-u1")];
     req_id := VUndef; req_file := VUndef |}.

Definition register_acme : Req :=
  request (VObj [("companyName", VStr "Acme")]) (VObj []).

Definition register_globex : Req :=
  request (VObj [("companyName", VStr "Globex")]) (VObj []).

Definition register_nothing : Req :=
  request (VObj [("website", VStr "acme.example")]) (VObj []).

Definition list_mine : Req := request (VObj []) (VObj []).

Definition get_one : Req := request (VObj []) (VObj [("id", VStr "1")]).

Definition get_missing : Req := request (VObj []) (VObj [("id", VStr "7")]).

Definition update_one : Req :=
  request (VObj [("name", VStr "Acme Ltd")]) (VObj [("id", VStr "1")]).

(** A token library that accepts one token. *)
Definition verify (token secret : JsVal) : Completion JsVal :=
  if jsval_eqb token (VStr "token-of-u1") && jsval_eqb secret (VStr "s3cret")
  then Normal (VObj [("userId", VStr "u1"); ("iat", VNum 1704876800); ("exp", VNum 1704963200)])
  else Throw (Raised (VStr "JsonWebTokenError")).

Definition nothing (req : Req) : M Mem.Store unit := ret tt.

End Scenario.

(** More requests: edge cases of the body, another subject, no cookie. *)
Module Cases.

Definition register_empty_name : Req :=
  Scenario.request (VObj [("companyName", VStr "")]) (VObj []).

Definition without_body : Req := Scenario.request VUndef (VObj []).

(** The request of Scenario.get_one as subject u2 sends it, with a body. *)
Definition get_one_as_u2 : Req :=
  {| req_body := VObj [("userId", VStr "u1")];
     req_params := VObj [("id", VStr "1")];
     req_cookies := VObj [("token", VStr "token-of-u2")];
     req_id := VStr "u2"; req_file := VUndef |}.

(** A request that carries no token cookie. *)
Definition anonymous : Req :=
  {| req_body := VObj [("companyName", VStr "Globex")]; req_params := VObj [];
     req_cookies := VObj []; req_id := VUndef; req_file := VUndef |}.

End Cases.

(** ** Properties *)

Section Properties.

Context {DB : Type}.

Implicit Types (w : World DB) (req : Req) (Company : ModelObj DB) (B : Backend DB).

(** The world after console.log(e). *)
Definition logged (e : Thrown) (w : World DB) : World DB :=
  {| db := db w; res_statusCode := res_statusCode w; sent := sent w;
     console := console w ++ [e]; calls := calls w |}.

(** The world after res.status(code).json(body) on a response not yet sent. *)
Definition replied (code : Z) (body : JsVal) (w : World DB) : World DB :=
  {| db := db w; res_statusCode := code;
     sent := Some {| statusCode := code; payload := body |};
     console := console w; calls := calls w |}.

(** The world after an awaited model call that left the store as [d]. *)
Definition called (name : string) (args : list JsVal) (d : DB) (w : World DB) : World DB :=
  {| db := d; res_statusCode := res_statusCode w; sent := sent w;
     console := console w;
     calls := calls w ++ [{| callee := name; arguments := args |}] |}.

(** Unfold the effects of the monad, so that a run computes. *)
Ltac run :=
  unfold invoke, ident, get_prop, try_catch, bind, ret, throw, lift,
    res_status, res_json, console_log.

Lemma mongoose_has_no_finOne B : mongoose_model B "finOne" = None.
Proof. reflexivity. Qed.

Lemma arrays_are_truthy (items : list JsVal) : truthy (VArr items) = true.
Proof. reflexivity. Qed.

Lemma documents_are_truthy (d : Doc) : truthy (doc_or_null (Some d)) = true.
Proof. reflexivity. Qed.

Lemma null_is_falsy : truthy (doc_or_null None) = false.
Proof. reflexivity. Qed.

(** A request whose companyName is any falsy value is answered 400 before the
    model is touched. *)
Lemma registerCompany_falsy_name Company req w (v : JsVal) :
  prop (req_body req) "companyName" = Normal v ->
  truthy v = false ->
  sent w = None ->
  registerCompany Company req w =
    (Normal tt, replied 400 (message "Company name is required" false) w).
Proof.
  intros Hp Hv Hs. unfold registerCompany, replied; run. rewrite Hp, Hv. simpl. rewrite Hs. reflexivity.
Qed.

(** The body of the request has no companyName: it is not an object that
    carries the field.  A request without a body is such a request too. *)
Definition companyName_absent (req : Req) : Prop :=
  forall fs : list (string * JsVal),
    req_body req = VObj fs -> assoc "companyName" fs = None.

(** C4, as the code has it.  A registerCompany request that has a body
    (req.body is neither undefined nor null) in which companyName is absent
    is answered, on a response not yet sent, with status 400, the message
    "Company name is required" and success false; the store is the one it
    was and no model call is made.  (Without a body the handler sends
    nothing: see the counterexample.) *)
Theorem registerCompany_requires_companyName Company req w :
  req_body req <> VUndef ->
  req_body req <> VNull ->
  companyName_absent req ->
  sent w = None ->
  registerCompany Company req w =
    (Normal tt,
     {| db := db w; res_statusCode := 400;
        sent := Some {| statusCode := 400;
                        payload := VObj [("message", VStr "Company name is required");
                                         ("success", VBool false)] |};
        console := console w; calls := calls w |}).
Proof.
  intros Hu Hn Habs Hs.
  apply (registerCompany_falsy_name Company req w VUndef); trivial.
  unfold companyName_absent in Habs.
  destruct (req_body req) as [| |b|n|t|xs|fs|h]; try reflexivity; try congruence.
  unfold prop, field. now rewrite (Habs fs eq_refl).
Qed.

(** With a model that has no member finOne, a request that passes the
    companyName check ends in the catch clause at the lookup. *)
Lemma registerCompany_without_finOne Company req w (companyName : JsVal) :
  Company "finOne" = None ->
  prop (req_body req) "companyName" = Normal companyName ->
  truthy companyName = true ->
  registerCompany Company req w =
    (Normal tt, logged (TypeError "Company.finOne is not a function") w).
Proof.
  intros Hm Hp Hv. unfold registerCompany; run. rewrite Hp, Hv. simpl.
  rewrite Hm. reflexivity.
Qed.

(** C8. A registerCompany request that passes the companyName check reaches
    the call of Company.finOne, which the exported model does not have: the
    TypeError is caught and logged, the store is unchanged, no model method
    is called (no lookup, no create) and no response is sent. *)
Theorem registerCompany_stops_at_finOne B req w (companyName : JsVal) :
  prop (req_body req) "companyName" = Normal companyName ->
  truthy companyName = true ->
  registerCompany (mongoose_model B) req w =
    (Normal tt,
     {| db := db w; res_statusCode := res_statusCode w; sent := sent w;
        console := console w ++ [TypeError "Company.finOne is not a function"];
        calls := calls w |}).
Proof.
  intros Hp Hv.
  exact (registerCompany_without_finOne (mongoose_model B) req w companyName
           (mongoose_has_no_finOne B) Hp Hv).
Qed.


(** Whatever the model and the request, registerCompany neither throws nor
    leaves a rejection behind: every failure ends in its catch clause. *)
Lemma registerCompany_completes Company req w :
  fst (registerCompany Company req w) = Normal tt.
Proof.
  unfold registerCompany; run.
  destruct (prop (req_body req) "companyName") as [cn|e]; simpl; [|reflexivity].
  destruct (truthy cn); simpl.
  - destruct (Company "finOne") as [m|]; simpl; [|reflexivity].
    destruct (m _ _) as [[v|e] d]; simpl; [|reflexivity].
    destruct (truthy v); simpl.
    + destruct (sent w); reflexivity.
    + destruct (Company "create") as [m'|]; simpl; [|reflexivity].
      destruct (m' _ _) as [[v'|e'] d']; simpl; [|reflexivity].
      destruct (sent w); reflexivity.
  - destruct (sent w); reflexivity.
Qed.

(** With the exported model, registerCompany never reaches a model method:
    neither the store nor the record of calls changes, for any request. *)
Lemma registerCompany_never_creates B req w :
  db (snd (registerCompany (mongoose_model B) req w)) = db w /\
  calls (snd (registerCompany (mongoose_model B) req w)) = calls w.
Proof.
  unfold registerCompany; run.
  destruct (prop (req_body req) "companyName") as [cn|e]; simpl; [|split; reflexivity].
  destruct (truthy cn); simpl; [split; reflexivity|].
  destruct (sent w); split; reflexivity.
Qed.

(** C10. A getCompany request whose lookup succeeds ends normally without a
    response: the array that Company.find resolves to is truthy, so the 404
    reply is skipped, and there is no other reply; nor does a failed lookup
    reach the 404 reply. *)
Theorem getCompany_sends_nothing B req w :
  (forall docs : list Doc,
      find B (VObj [("userId", req_id req)]) (db w) = Normal docs ->
      truthy (VArr (map VObj docs)) = true /\
      getCompany (mongoose_model B) req w =
        (Normal tt,
         {| db := db w; res_statusCode := res_statusCode w; sent := sent w;
            console := console w;
            calls := calls w ++ [{| callee := "find";
                                    arguments := [VObj [("userId", req_id req)]] |}] |}))
  /\ sent (snd (getCompany (mongoose_model B) req w)) = sent w.
Proof.
  split.
  - intros docs Hf. split; [reflexivity|].
    unfold getCompany; run. simpl. unfold arg. simpl. rewrite Hf. reflexivity.
  - unfold getCompany; run. simpl. unfold arg. simpl.
    destruct (find B _ _) as [docs|e]; reflexivity.
Qed.

(** getCompanyById after a lookup that resolved: 200 with the document, or
    404 for null. *)
Lemma getCompanyById_resolved B req w (id : JsVal) (found : option Doc) :
  prop (req_params req) "id" = Normal id ->
  sent w = None ->
  findById B id (db w) = Normal found ->
  getCompanyById (mongoose_model B) req w =
    (Normal tt,
     match found with
     | Some company =>
         replied 200 (VObj [("company", VObj company); ("success", VBool true)])
           (called "findById" [id] (db w) w)
     | None =>
         replied 404 (message "Company not found" false)
           (called "findById" [id] (db w) w)
     end).
Proof.
  intros Hp Hs Hf. unfold getCompanyById, replied, called; run. rewrite Hp. simpl. unfold arg. simpl.
  rewrite Hf. destruct found; simpl; rewrite Hs; reflexivity.
Qed.

(** C5. getCompanyById, on a response not yet sent: when the lookup by the
    id of the route resolves to a company, the reply is 200 with that company
    and success true; when it resolves to null, the reply is 404 "Company not
    found" with success false. *)
Theorem getCompanyById_found_or_404 B req w (id : JsVal) :
  prop (req_params req) "id" = Normal id ->
  sent w = None ->
  (forall company : Doc,
      findById B id (db w) = Normal (Some company) ->
      getCompanyById (mongoose_model B) req w =
        (Normal tt,
         {| db := db w; res_statusCode := 200;
            sent := Some {| statusCode := 200;
                            payload := VObj [("company", VObj company);
                                             ("success", VBool true)] |};
            console := console w;
            calls := calls w ++ [{| callee := "findById"; arguments := [id] |}] |}))
  /\ (findById B id (db w) = Normal None ->
      getCompanyById (mongoose_model B) req w =
        (Normal tt,
         {| db := db w; res_statusCode := 404;
            sent := Some {| statusCode := 404;
                            payload := VObj [("message", VStr "Company not found");
                                             ("success", VBool false)] |};
            console := console w;
            calls := calls w ++ [{| callee := "findById"; arguments := [id] |}] |})).
Proof.
  intros Hp Hs. split.
  - intros company Hf. exact (getCompanyById_resolved B req w id _ Hp Hs Hf).
  - intros Hf. exact (getCompanyById_resolved B req w id _ Hp Hs Hf).
Qed.

(** On the reference store a lookup by id answers with a stored document
    carrying that id, or with null when no stored document carries it. *)
Lemma mem_findById_some (id : JsVal) (s : Mem.Store) (d : Doc) :
  Mem.mem_findById id s = Normal (Some d) ->
  In d (Mem.docs s) /\ jsval_eqb (field "_id" d) id = true.
Proof.
  unfold Mem.mem_findById, Mem.mem_findOne.
  destruct (Mem.online s); [|discriminate].
  intros H. injection H as H. apply find_some in H. destruct H as [Hin Hm].
  split; [exact Hin|].
  unfold Mem.matches in Hm. simpl in Hm. now rewrite andb_true_r in Hm.
Qed.

Lemma mem_findById_none (id : JsVal) (s : Mem.Store) :
  Mem.mem_findById id s = Normal None ->
  forall d, In d (Mem.docs s) -> jsval_eqb (field "_id" d) id = false.
Proof.
  unfold Mem.mem_findById, Mem.mem_findOne.
  destruct (Mem.online s); [|discriminate].
  intros H d Hin. injection H as H.
  pose proof (find_none _ _ H d Hin) as Hm.
  unfold Mem.matches in Hm. simpl in Hm. now rewrite andb_true_r in Hm.
Qed.

Lemma params_unbound req (name description website location file updatedData : JsVal) :
  assoc "params" (updateCompany_scope req name description website location file updatedData) = None.
Proof. reflexivity. Qed.

(** updateCompany ends in its catch clause for every model and request. *)
Lemma updateCompany_is_caught Company req w :
  exists e, updateCompany Company req w = (Normal tt, logged e w) /\
            (req_body req <> VUndef -> req_body req <> VNull ->
             e = ReferenceError "params is not defined").
Proof.
  unfold updateCompany, updateCompany_args, logged; run.
  destruct (req_body req) eqn:Hb; simpl;
    try (eexists; split; [reflexivity | intros; congruence]);
    try (eexists; split; [reflexivity | intros; reflexivity]).
Qed.

(** C9. In updateCompany the argument list of the model call reads params,
    which nothing declares: evaluating it throws a ReferenceError in every
    state, before Company.findByIdAndUpdate can be called.  For every model
    and request the handler therefore ends in its catch clause: the error is
    logged, the store, the response and the record of model calls are what
    they were.  The reply after the call is never reached; run on its own
    with an updated company, it reports the update under status 404. *)
Theorem updateCompany_stops_at_params Company req w :
  (forall (name description website location file updatedData : JsVal) (w0 : World DB),
      updateCompany_args
        (updateCompany_scope req name description website location file updatedData) w0 =
        (Throw (ReferenceError "params is not defined"), w0))
  /\ (exists e : Thrown,
         updateCompany Company req w =
           (Normal tt,
            {| db := db w; res_statusCode := res_statusCode w; sent := sent w;
               console := console w ++ [e]; calls := calls w |})
         /\ (req_body req <> VUndef -> req_body req <> VNull ->
             e = ReferenceError "params is not defined"))
  /\ (forall (company : JsVal) (w0 : World DB),
         truthy company = true ->
         sent w0 = None ->
         updateCompany_reply company w0 =
           (Normal tt,
            {| db := db w0; res_statusCode := 404;
               sent := Some {| statusCode := 404;
                               payload := VObj [("message", VStr "Company information updated");
                                                ("success", VBool true)] |};
               console := console w0; calls := calls w0 |})).
Proof.
  split; [|split].
  - intros. reflexivity.
  - exact (updateCompany_is_caught Company req w).
  - intros company w0 Hc Hs. unfold updateCompany_reply; run. rewrite Hc. simpl. rewrite Hs. reflexivity.
Qed.


(** A 201 reply of registerCompany pins the whole run: the lookup by name
    resolved to nothing, Company.create was run on the store the lookup left
    with the name of the body and the userId req.id, and the reply carries
    the company, and the world the store, that this call produced. *)
Lemma registerCompany_201 Company req w (r : Response) :
  sent w = None ->
  sent (snd (registerCompany Company req w)) = Some r ->
  statusCode r = 201 ->
  exists (lookup make : Method DB) (companyName found company : JsVal) (d d' : DB),
    Company "finOne" = Some lookup /\
    Company "create" = Some make /\
    prop (req_body req) "companyName" = Normal companyName /\
    lookup [VObj [("name", companyName)]] (db w) = (Normal found, d) /\
    truthy found = false /\
    make [VObj [("name", companyName); ("userId", req_id req)]] d = (Normal company, d') /\
    registerCompany Company req w =
      (Normal tt,
       {| db := d'; res_statusCode := 201;
          sent := Some {| statusCode := 201;
                          payload := VObj [("message", VStr "Company registered successfully");
                                           ("company", company);
                                           ("success", VBool true)] |};
          console := console w;
          calls := calls w ++
                   [{| callee := "finOne"; arguments := [VObj [("name", companyName)]] |};
                    {| callee := "create";
                       arguments := [VObj [("name", companyName);
                                           ("userId", req_id req)]] |}] |}).
Proof.
  intros Hs Hsent H201. revert Hsent.
  unfold registerCompany; run. simpl.
  destruct (prop (req_body req) "companyName") as [cn|e] eqn:Hp; simpl.
  2:{ intros Hsent. congruence. }
  destruct (truthy cn) eqn:Hcn; simpl.
  2:{ rewrite Hs. simpl. intros [= <-]. discriminate H201. }
  destruct (Company "finOne") as [lookup|] eqn:Hlk; simpl.
  2:{ intros Hsent. congruence. }
  destruct (lookup _ _) as [[found|e] d] eqn:Hl; simpl.
  2:{ intros Hsent. congruence. }
  destruct (truthy found) eqn:Hf; simpl.
  { rewrite Hs. simpl. intros [= <-]. discriminate H201. }
  destruct (Company "create") as [make|] eqn:Hmk; simpl.
  2:{ intros Hsent. congruence. }
  destruct (make _ _) as [[company|e'] d'] eqn:Hm; simpl.
  2:{ intros Hsent. congruence. }
  rewrite Hs. simpl. intros _.
  exists lookup, make, cn, found, company, d, d'.
  repeat split; try assumption. now rewrite <- app_assoc.
Qed.

(** getCompany runs the model's find on the store with the one filter
    {userId: req.id}; what find answers decides the rest. *)
Lemma getCompany_by_subject Company req w (lookup : Method DB) (r : Completion JsVal) (d : DB) :
  Company "find" = Some lookup ->
  lookup [VObj [("userId", req_id req)]] (db w) = (r, d) ->
  (forall companies : JsVal,
      r = Normal companies -> truthy companies = true ->
      getCompany Company req w =
        (Normal tt,
         {| db := d; res_statusCode := res_statusCode w; sent := sent w;
            console := console w;
            calls := calls w ++ [{| callee := "find";
                                    arguments := [VObj [("userId", req_id req)]] |}] |}))
  /\ (forall e : Thrown,
         r = Throw e ->
         getCompany Company req w =
           (Normal tt,
            {| db := d; res_statusCode := res_statusCode w; sent := sent w;
               console := console w ++ [e];
               calls := calls w ++ [{| callee := "find";
                                       arguments := [VObj [("userId", req_id req)]] |}] |})).
Proof.
  intros Hm Hl. split.
  - intros companies -> Ht. unfold getCompany; run. simpl.
    rewrite Hm. simpl. rewrite Hl. simpl. rewrite Ht. reflexivity.
  - intros e ->. unfold getCompany; run. simpl.
    rewrite Hm. simpl. rewrite Hl. reflexivity.
Qed.

(** C6. The subject a handler acts for is the identity context req.id, for
    every model object the controller may be given.  A registerCompany run
    that replies 201 is the run in which Company.create was executed with
    {name, userId: req.id} on the store the lookup left: the reply carries
    the company that call resolved to and the store is the one it produced.
    getCompany executes the model's find with the filter {userId: req.id}
    and nothing else: the store afterwards and the outcome are those of that
    call, and with the exported model the run is fixed by what
    find({userId: req.id}) answers.  Two requests with the same req.id are
    indistinguishable to getCompany, and to registerCompany when they also
    agree on companyName: no other field of the body bears on the run.
    (With the exported model no run of registerCompany replies 201.) *)
Theorem subject_is_the_identity_context Company B req w :
  (forall r : Response,
      sent w = None ->
      sent (snd (registerCompany Company req w)) = Some r ->
      statusCode r = 201 ->
      exists (lookup make : Method DB) (companyName found company : JsVal) (d d' : DB),
        Company "finOne" = Some lookup /\
        Company "create" = Some make /\
        prop (req_body req) "companyName" = Normal companyName /\
        lookup [VObj [("name", companyName)]] (db w) = (Normal found, d) /\
        truthy found = false /\
        make [VObj [("name", companyName); ("userId", req_id req)]] d =
          (Normal company, d') /\
        registerCompany Company req w =
          (Normal tt,
           {| db := d'; res_statusCode := 201;
              sent := Some {| statusCode := 201;
                              payload := VObj [("message",
                                                VStr "Company registered successfully");
                                               ("company", company);
                                               ("success", VBool true)] |};
              console := console w;
              calls := calls w ++
                       [{| callee := "finOne";
                           arguments := [VObj [("name", companyName)]] |};
                        {| callee := "create";
                           arguments := [VObj [("name", companyName);
                                               ("userId", req_id req)]] |}] |}))
  /\ (forall (lookup : Method DB) (r : Completion JsVal) (d : DB),
         Company "find" = Some lookup ->
         lookup [VObj [("userId", req_id req)]] (db w) = (r, d) ->
         (forall companies : JsVal,
             r = Normal companies -> truthy companies = true ->
             getCompany Company req w =
               (Normal tt,
                {| db := d; res_statusCode := res_statusCode w; sent := sent w;
                   console := console w;
                   calls := calls w ++
                            [{| callee := "find";
                                arguments := [VObj [("userId", req_id req)]] |}] |}))
         /\ (forall e : Thrown,
                r = Throw e ->
                getCompany Company req w =
                  (Normal tt,
                   {| db := d; res_statusCode := res_statusCode w; sent := sent w;
                      console := console w ++ [e];
                      calls := calls w ++
                               [{| callee := "find";
                                   arguments := [VObj [("userId", req_id req)]] |}] |})))
  /\ getCompany (mongoose_model B) req w =
       (Normal tt,
        {| db := db w; res_statusCode := res_statusCode w; sent := sent w;
           console := match find B (VObj [("userId", req_id req)]) (db w) with
                      | Normal _ => console w
                      | Throw e => console w ++ [e]
                      end;
           calls := calls w ++ [{| callee := "find";
                                   arguments := [VObj [("userId", req_id req)]] |}] |})
  /\ (forall req2 : Req,
         req_id req2 = req_id req ->
         prop (req_body req2) "companyName" = prop (req_body req) "companyName" ->
         registerCompany Company req2 w = registerCompany Company req w)
  /\ (forall req2 : Req,
         req_id req2 = req_id req ->
         getCompany Company req2 w = getCompany Company req w).
Proof.
  split; [|split; [|split; [|split]]].
  - intros r. apply registerCompany_201.
  - intros lookup r d. apply getCompany_by_subject.
  - unfold getCompany; run. simpl. unfold arg. simpl.
    destruct (find B _ _) as [docs|e]; reflexivity.
  - intros req2 Hid Hname. unfold registerCompany; run. rewrite Hid, Hname. reflexivity.
  - intros req2 Hid. unfold getCompany; run. rewrite Hid. reflexivity.
Qed.

(** The gate calls next() only for a request it admitted, and changes
    nothing else on that path. *)
Lemma gate_next (jwt_verify : JsVal -> JsVal -> Completion JsVal) (SECRET_KEY : JsVal)
      req req' w (w' : World DB) :
  isAuthenticated jwt_verify SECRET_KEY req w = (Normal (Next req'), w') ->
  admitted jwt_verify SECRET_KEY req req' /\ w' = w.
Proof.
  unfold isAuthenticated; run. simpl.
  destruct (prop (req_cookies req) "token") as [token|e] eqn:Ht; simpl; [|discriminate].
  destruct (truthy token) eqn:Htt; simpl.
  2:{ destruct (sent w); simpl; discriminate. }
  destruct (jwt_verify token SECRET_KEY) as [decode|e] eqn:Hv; simpl; [|discriminate].
  destruct (truthy decode) eqn:Hd; simpl.
  2:{ destruct (sent w); simpl; discriminate. }
  destruct (prop decode "userId") as [userId|e] eqn:Hu; simpl; [|discriminate].
  intros [= <- <-]. split; [|reflexivity].
  exists token, decode, userId. repeat split; assumption.
Qed.

(** A stack made of the gate and a controller enters the controller only
    with a request the gate admitted. *)
Lemma guarded_stack (jwt_verify : JsVal -> JsVal -> Completion JsVal) (SECRET_KEY : JsVal)
      (name : string) (h : Req -> M DB unit) req w (n : string) req' :
  In (n, req') (fst (dispatch [gate jwt_verify SECRET_KEY; controller name h] req w)) ->
  n <> "isAuthenticated" ->
  admitted jwt_verify SECRET_KEY req req' /\
  fst (dispatch [gate jwt_verify SECRET_KEY; controller name h] req w) =
    [("isAuthenticated", req); (name, req')].
Proof.
  simpl.
  destruct (isAuthenticated jwt_verify SECRET_KEY req w) as [[[req1|]|e] w1] eqn:Hg; simpl.
  - apply gate_next in Hg. destruct Hg as [Hadm ->].
    unfold endpoint, bind, ret.
    destruct (h req1 w) as [[[]|e] w2]; simpl;
      intros [H|[H|[]]] Hn; injection H as <- <-; try congruence; now split.
  - intros [H|[]] Hn. injection H as <- <-. congruence.
  - intros [H|[]] Hn. injection H as <- <-. congruence.
Qed.

(** C2. Every route of the company, application and job tables has the
    stack (isAuthenticated, controller); and on such a route a controller is
    entered only after the gate ran on the request, admitted it and assigned
    req.id from the verified token: the request the controller receives is
    the incoming one with that req.id. *)
Theorem controllers_run_behind_the_gate
        (jwt_verify : JsVal -> JsVal -> Completion JsVal) (SECRET_KEY : JsVal)
        (h_registerCompany h_updateCompany h_getCompanyById h_getCompany : Req -> M DB unit)
        (h_postjob h_getAdminJobs h_getJobById h_getAllJobs : Req -> M DB unit)
        (h_applyJob h_getAppliedJobs h_getApplicants h_updateStatus : Req -> M DB unit)
        (r : Route DB) :
  In r (company_router jwt_verify SECRET_KEY
          h_registerCompany h_updateCompany h_getCompanyById h_getCompany
        ++ application_router jwt_verify SECRET_KEY
             h_applyJob h_getAppliedJobs h_getApplicants h_updateStatus
        ++ job_router jwt_verify SECRET_KEY
             h_postjob h_getAdminJobs h_getJobById h_getAllJobs) ->
  (exists (name : string) (h : Req -> M DB unit),
      stack r = [gate jwt_verify SECRET_KEY; controller name h])
  /\ (forall req w (n : string) req',
         In (n, req') (fst (dispatch (stack r) req w)) ->
         n <> "isAuthenticated" ->
         admitted jwt_verify SECRET_KEY req req' /\
         exists rest, fst (dispatch (stack r) req w) =
                        ("isAuthenticated", req) :: rest ++ [(n, req')]).
Proof.
  intros Hin.
  assert (H : exists name h, stack r = [gate jwt_verify SECRET_KEY; controller name h]).
  { simpl in Hin.
    repeat (destruct Hin as [<-|Hin]; [eexists; eexists; reflexivity|]).
    destruct Hin. }
  split; [exact H|].
  destruct H as (name & h & ->).
  intros req w n req' Hn Hne.
  destruct (guarded_stack _ _ _ _ _ _ _ _ Hn Hne) as [Hadm Heq].
  split; [exact Hadm|].
  exists []. rewrite Heq. simpl.
  rewrite Heq in Hn. destruct Hn as [Hn|[Hn|[]]].
  - injection Hn as Hn _. congruence.
  - injection Hn as ->. reflexivity.
Qed.

(** X1. No handler of the controller lets a failure out: for every model object,
    request and state, each of the four completes normally, whatever was
    thrown inside its try block. *)
Theorem handlers_never_propagate Company req w :
  fst (registerCompany Company req w) = Normal tt /\
  fst (getCompany Company req w) = Normal tt /\
  fst (getCompanyById Company req w) = Normal tt /\
  fst (updateCompany Company req w) = Normal tt.
Proof.
  split; [apply registerCompany_completes|split; [|split]].
  - unfold getCompany; run. simpl.
    destruct (Company "find") as [m|]; simpl; [|reflexivity].
    destruct (m _ _) as [[v|e] d]; simpl; [|reflexivity].
    destruct (truthy v); simpl; [reflexivity|].
    destruct (sent w); reflexivity.
  - unfold getCompanyById; run.
    destruct (prop (req_params req) "id") as [id|e]; simpl; [|reflexivity].
    destruct (Company "findById") as [m|]; simpl; [|reflexivity].
    destruct (m _ _) as [[v|e] d]; simpl; [|reflexivity].
    destruct (truthy v); simpl; destruct (sent w); reflexivity.
  - destruct (updateCompany_is_caught Company req w) as [e [-> _]]. reflexivity.
Qed.

(** X2. A lookup that rejects is logged and left unanswered: getCompanyById and
    getCompany end normally with the rejection on the console and the
    response untouched. *)
Theorem rejected_lookup_is_only_logged B req w (e : Thrown) :
  (forall id : JsVal,
      prop (req_params req) "id" = Normal id ->
      findById B id (db w) = Throw e ->
      getCompanyById (mongoose_model B) req w =
        (Normal tt,
         {| db := db w; res_statusCode := res_statusCode w; sent := sent w;
            console := console w ++ [e];
            calls := calls w ++ [{| callee := "findById"; arguments := [id] |}] |}))
  /\ (find B (VObj [("userId", req_id req)]) (db w) = Throw e ->
      getCompany (mongoose_model B) req w =
        (Normal tt,
         {| db := db w; res_statusCode := res_statusCode w; sent := sent w;
            console := console w ++ [e];
            calls := calls w ++ [{| callee := "find";
                                    arguments := [VObj [("userId", req_id req)]] |}] |})).
Proof.
  split.
  - intros id Hp Hf. unfold getCompanyById; run. rewrite Hp. simpl. unfold arg. simpl. rewrite Hf. reflexivity.
  - intros Hf. unfold getCompany; run. simpl. unfold arg. simpl. rewrite Hf. reflexivity.
Qed.

End Properties.

(** ** The properties at concrete requests *)

(** On the reference store, getCompanyById answers 200 with a stored company
    carrying the requested id when there is one, and 404 when there is none. *)
Lemma getCompanyById_on_collection (req : Req) (w : World Mem.Store) (id : JsVal) :
  prop (req_params req) "id" = Normal id ->
  sent w = None ->
  Mem.online (db w) = true ->
  ((exists d, In d (Mem.docs (db w)) /\ jsval_eqb (field "_id" d) id = true) ->
   exists d w',
     In d (Mem.docs (db w)) /\ jsval_eqb (field "_id" d) id = true /\
     getCompanyById (mongoose_model Mem.backend) req w = (Normal tt, w') /\
     sent w' = Some {| statusCode := 200;
                       payload := VObj [("company", VObj d); ("success", VBool true)] |})
  /\ ((forall d, In d (Mem.docs (db w)) -> jsval_eqb (field "_id" d) id = false) ->
      exists w',
        getCompanyById (mongoose_model Mem.backend) req w = (Normal tt, w') /\
        sent w' = Some {| statusCode := 404;
                          payload := message "Company not found" false |}).
Proof.
  intros Hp Hs Hon.
  pose proof (fun found => getCompanyById_resolved Mem.backend req w id found Hp Hs) as Hrun.
  destruct (Mem.mem_findById id (db w)) as [[d|]|e] eqn:Hf.
  - pose proof (mem_findById_some _ _ _ Hf) as [Hin Hid].
    split.
    + intros _. eexists d, _. repeat split; try eassumption.
      * apply (Hrun (Some d)). exact Hf.
      * reflexivity.
    + intros Hall. rewrite (Hall d Hin) in Hid. discriminate.
  - split.
    + intros [d [Hin Hid]].
      rewrite (mem_findById_none _ _ Hf d Hin) in Hid. discriminate.
    + intros _. eexists. split; [apply (Hrun None); exact Hf | reflexivity].
  - unfold Mem.mem_findById, Mem.mem_findOne in Hf. rewrite Hon in Hf. discriminate.
Qed.

(** C1, at a request that registers a name already in the store: the call of
    Company.finOne throws, the handler logs the TypeError and ends; nothing is
    written, and no reply, in particular no 400, is sent. *)
Example register_duplicate_gets_no_reply :
  registerCompany Scenario.Company Scenario.register_acme (fresh Scenario.one_company) =
    (Normal tt,
     {| db := Scenario.one_company; res_statusCode := 200; sent := None;
        console := [TypeError "Company.finOne is not a function"];
        calls := [] |}).
Proof. reflexivity. Qed.

(** C3, at requests whose handling fails: with the store unreachable
    getCompanyById logs the rejection and ends without a reply; so do
    registerCompany and updateCompany on the errors they raise themselves. *)
Example failures_are_logged_not_answered :
  getCompanyById Scenario.Company Scenario.get_one (fresh Scenario.store_down) =
    (Normal tt,
     {| db := Scenario.store_down; res_statusCode := 200; sent := None;
        console := [Raised (VStr "MongoNetworkError")];
        calls := [{| callee := "findById"; arguments := [VStr "1"] |}] |})
  /\ getCompany Scenario.Company Scenario.list_mine (fresh Scenario.store_down) =
    (Normal tt,
     {| db := Scenario.store_down; res_statusCode := 200; sent := None;
        console := [Raised (VStr "MongoNetworkError")];
        calls := [{| callee := "find"; arguments := [VObj [("userId", VStr "u1")]] |}] |})
  /\ registerCompany Scenario.Company Scenario.register_globex (fresh Scenario.one_company) =
    (Normal tt,
     {| db := Scenario.one_company; res_statusCode := 200; sent := None;
        console := [TypeError "Company.finOne is not a function"];
        calls := [] |})
  /\ updateCompany Scenario.Company Scenario.update_one (fresh Scenario.one_company) =
    (Normal tt,
     {| db := Scenario.one_company; res_statusCode := 200; sent := None;
        console := [ReferenceError "params is not defined"];
        calls := [] |}).
Proof. repeat split. Qed.

(** C7, at a subject that owns one company and at a store with none: in both
    cases getCompany makes its lookup and ends without any reply, neither the
    companies nor a 404. *)
Example getCompany_answers_neither_way :
  getCompany Scenario.Company Scenario.list_mine (fresh Scenario.one_company) =
    (Normal tt,
     {| db := Scenario.one_company; res_statusCode := 200; sent := None;
        console := [];
        calls := [{| callee := "find"; arguments := [VObj [("userId", VStr "u1")]] |}] |})
  /\ Mem.mem_find (VObj [("userId", VStr "u1")]) Scenario.one_company = Normal [Scenario.acme]
  /\ getCompany Scenario.Company Scenario.list_mine (fresh Scenario.no_company) =
    (Normal tt,
     {| db := Scenario.no_company; res_statusCode := 200; sent := None;
        console := [];
        calls := [{| callee := "find"; arguments := [VObj [("userId", VStr "u1")]] |}] |})
  /\ Mem.mem_find (VObj [("userId", VStr "u1")]) Scenario.no_company = Normal [].
Proof. repeat split. Qed.

(** C4 as stated fails at a request without a body: companyName is absent,
    the response is fresh, and registerCompany sends nothing (the
    destructuring on line 4 throws and the catch clause logs). *)
Lemma registerCompany_without_body_counterexample :
  companyName_absent Cases.without_body /\
  sent (fresh Scenario.one_company) = None /\
  registerCompany Scenario.Company Cases.without_body (fresh Scenario.one_company) =
    (Normal tt,
     {| db := Scenario.one_company; res_statusCode := 200; sent := None;
        console := [TypeError "Cannot read properties of undefined, reading companyName"];
        calls := [] |}) /\
  ~ (exists reply : Response,
        sent (snd (registerCompany Scenario.Company Cases.without_body
                     (fresh Scenario.one_company))) = Some reply).
Proof.
  repeat split.
  - intros fs H. discriminate H.
  - intros [reply H]. discriminate H.
Qed.

(** C5 as stated fails when the lookup rejects.  With the store unreachable,
    the company with id 1 is in the collection and the request for it gets no
    reply, not the 200; and no company has id 7 and the request for it gets
    no reply, not the 404.  In both runs findById rejects on line 49 and the
    catch clause only logs. *)
Lemma getCompanyById_rejected_lookup_counterexample :
  (In Scenario.acme (Mem.docs Scenario.store_down) /\
   field "_id" Scenario.acme = VStr "1" /\
   prop (req_params Scenario.get_one) "id" = Normal (VStr "1") /\
   getCompanyById Scenario.Company Scenario.get_one (fresh Scenario.store_down) =
     (Normal tt,
      {| db := Scenario.store_down; res_statusCode := 200; sent := None;
         console := [Raised (VStr "MongoNetworkError")];
         calls := [{| callee := "findById"; arguments := [VStr "1"] |}] |}))
  /\ ((forall d : Doc, In d (Mem.docs Scenario.store_down) ->
                       jsval_eqb (field "_id" d) (VStr "7") = false) /\
      prop (req_params Scenario.get_missing) "id" = Normal (VStr "7") /\
      getCompanyById Scenario.Company Scenario.get_missing (fresh Scenario.store_down) =
        (Normal tt,
         {| db := Scenario.store_down; res_statusCode := 200; sent := None;
            console := [Raised (VStr "MongoNetworkError")];
            calls := [{| callee := "findById"; arguments := [VStr "7"] |}] |})).
Proof.
  repeat split.
  - now left.
  - intros d [<-|[]]. reflexivity.
Qed.

(** A body with a website and no companyName, on a fresh response. *)
Lemma registerCompany_requires_companyName_witness :
  registerCompany Scenario.Company Scenario.register_nothing (fresh Scenario.one_company) =
    (Normal tt,
     {| db := Scenario.one_company; res_statusCode := 400;
        sent := Some {| statusCode := 400;
                        payload := VObj [("message", VStr "Company name is required");
                                         ("success", VBool false)] |};
        console := []; calls := [] |}).
Proof.
  refine (registerCompany_requires_companyName
            Scenario.Company Scenario.register_nothing (fresh Scenario.one_company)
            _ _ _ eq_refl).
  - discriminate.
  - discriminate.
  - intros fs H. injection H as <-. reflexivity.
Defined.

(** Registering Globex, a name the store does not hold. *)
Lemma registerCompany_stops_at_finOne_witness :
  registerCompany Scenario.Company Scenario.register_globex (fresh Scenario.one_company) =
    (Normal tt,
     {| db := Scenario.one_company; res_statusCode := 200; sent := None;
        console := [TypeError "Company.finOne is not a function"];
        calls := [] |}).
Proof.
  exact (registerCompany_stops_at_finOne
           Mem.backend Scenario.register_globex (fresh Scenario.one_company)
           (VStr "Globex") eq_refl eq_refl).
Defined.

(** The subject u1 lists its companies, with one company and with none. *)
Lemma getCompany_sends_nothing_witness :
  getCompany Scenario.Company Scenario.list_mine (fresh Scenario.one_company) =
    (Normal tt,
     {| db := Scenario.one_company; res_statusCode := 200; sent := None;
        console := [];
        calls := [{| callee := "find"; arguments := [VObj [("userId", VStr "u1")]] |}] |})
  /\ sent (snd (getCompany Scenario.Company Scenario.list_mine (fresh Scenario.no_company))) = None.
Proof.
  split.
  - exact (proj2 (proj1 (getCompany_sends_nothing
                           Mem.backend Scenario.list_mine (fresh Scenario.one_company))
                    [Scenario.acme] eq_refl)).
  - exact (proj2 (getCompany_sends_nothing
                    Mem.backend Scenario.list_mine (fresh Scenario.no_company))).
Defined.

(** The stored id 1 and the unknown id 7. *)
Lemma getCompanyById_found_or_404_witness :
  getCompanyById Scenario.Company Scenario.get_one (fresh Scenario.one_company) =
    (Normal tt,
     {| db := Scenario.one_company; res_statusCode := 200;
        sent := Some {| statusCode := 200;
                        payload := VObj [("company", VObj Scenario.acme);
                                         ("success", VBool true)] |};
        console := [];
        calls := [{| callee := "findById"; arguments := [VStr "1"] |}] |})
  /\ getCompanyById Scenario.Company Scenario.get_missing (fresh Scenario.one_company) =
    (Normal tt,
     {| db := Scenario.one_company; res_statusCode := 404;
        sent := Some {| statusCode := 404;
                        payload := VObj [("message", VStr "Company not found");
                                         ("success", VBool false)] |};
        console := [];
        calls := [{| callee := "findById"; arguments := [VStr "7"] |}] |}).
Proof.
  split.
  - exact (proj1 (getCompanyById_found_or_404
                    Mem.backend Scenario.get_one (fresh Scenario.one_company)
                    (VStr "1") eq_refl eq_refl)
             Scenario.acme eq_refl).
  - exact (proj2 (getCompanyById_found_or_404
                    Mem.backend Scenario.get_missing (fresh Scenario.one_company)
                    (VStr "7") eq_refl eq_refl)
             eq_refl).
Defined.

(** An update of company 1, and the reply block run on the stored company. *)
Lemma updateCompany_stops_at_params_witness :
  updateCompany Scenario.Company Scenario.update_one (fresh Scenario.one_company) =
    (Normal tt,
     {| db := Scenario.one_company; res_statusCode := 200; sent := None;
        console := [ReferenceError "params is not defined"];
        calls := [] |})
  /\ updateCompany_reply (VObj Scenario.acme) (fresh Scenario.one_company) =
    (Normal tt,
     {| db := Scenario.one_company; res_statusCode := 404;
        sent := Some {| statusCode := 404;
                        payload := VObj [("message", VStr "Company information updated");
                                         ("success", VBool true)] |};
        console := []; calls := [] |}).
Proof.
  pose proof (updateCompany_stops_at_params
                Scenario.Company Scenario.update_one (fresh Scenario.one_company))
    as [_ [_ Hreply]].
  split.
  - reflexivity.
  - exact (Hreply (VObj Scenario.acme) (fresh Scenario.one_company) eq_refl eq_refl).
Defined.

(** Registering Globex for u1 against a model that does have finOne: the
    run that replies 201 created the company with userId u1, and the store
    holds it afterwards. *)
Lemma subject_is_the_identity_context_witness :
  (exists (lookup make : Method Mem.Store) (companyName found company : JsVal)
          (d d' : Mem.Store),
      Scenario.Company_with_finOne "finOne" = Some lookup /\
      Scenario.Company_with_finOne "create" = Some make /\
      prop (req_body Scenario.register_globex) "companyName" = Normal companyName /\
      lookup [VObj [("name", companyName)]] Scenario.one_company = (Normal found, d) /\
      truthy found = false /\
      make [VObj [("name", companyName); ("userId", VStr "u1")]] d = (Normal company, d') /\
      registerCompany Scenario.Company_with_finOne Scenario.register_globex
        (fresh Scenario.one_company) =
        (Normal tt,
         {| db := d'; res_statusCode := 201;
            sent := Some {| statusCode := 201;
                            payload := VObj [("message",
                                              VStr "Company registered successfully");
                                             ("company", company);
                                             ("success", VBool true)] |};
            console := [];
            calls := [{| callee := "finOne";
                         arguments := [VObj [("name", companyName)]] |};
                      {| callee := "create";
                         arguments := [VObj [("name", companyName);
                                             ("userId", VStr "u1")]] |}] |}))
  /\ Mem.docs (db (snd (registerCompany Scenario.Company_with_finOne
                          Scenario.register_globex (fresh Scenario.one_company)))) =
     [Scenario.acme;
      [("_id", VStr "2"); ("name", VStr "Globex"); ("userId", VStr "u1")]].
Proof.
  split.
  - exact (proj1 (subject_is_the_identity_context
                    Scenario.Company_with_finOne Mem.backend Scenario.register_globex
                    (fresh Scenario.one_company))
             {| statusCode := 201;
                payload := VObj [("message", VStr "Company registered successfully");
                                 ("company", VObj [("_id", VStr "2"); ("name", VStr "Globex");
                                                   ("userId", VStr "u1")]);
                                 ("success", VBool true)] |}
             eq_refl eq_refl eq_refl).
  - reflexivity.
Defined.

(** POST /register with the cookie of u1: the gate runs first and the
    controller receives the request with req.id u1. *)
Lemma controllers_run_behind_the_gate_witness :
  admitted Scenario.verify (VStr "s3cret")
    (Scenario.incoming (VObj [("companyName", VStr "Globex")]) (VObj []))
    Scenario.register_globex
  /\ exists rest,
      fst (dispatch
             [gate Scenario.verify (VStr "s3cret");
              controller "registerCompany" (registerCompany Scenario.Company)]
             (Scenario.incoming (VObj [("companyName", VStr "Globex")]) (VObj []))
             (fresh Scenario.one_company)) =
        ("isAuthenticated", Scenario.incoming (VObj [("companyName", VStr "Globex")]) (VObj []))
          :: rest ++ [("registerCompany", Scenario.register_globex)].
Proof.
  exact (proj2 (controllers_run_behind_the_gate
                  Scenario.verify (VStr "s3cret")
                  (registerCompany Scenario.Company) (updateCompany Scenario.Company)
                  (getCompanyById Scenario.Company) (getCompany Scenario.Company)
                  Scenario.nothing Scenario.nothing Scenario.nothing Scenario.nothing
                  Scenario.nothing Scenario.nothing Scenario.nothing Scenario.nothing
                  (on POST "/register"
                      [gate Scenario.verify (VStr "s3cret");
                       controller "registerCompany" (registerCompany Scenario.Company)])
                  (or_introl eq_refl))
           (Scenario.incoming (VObj [("companyName", VStr "Globex")]) (VObj []))
           (fresh Scenario.one_company)
           "registerCompany" Scenario.register_globex
           (or_intror (or_introl eq_refl))
           ltac:(discriminate)).
Defined.

(** A lookup by id while the store is unreachable. *)
Lemma rejected_lookup_is_only_logged_witness :
  getCompanyById Scenario.Company Scenario.get_one (fresh Scenario.store_down) =
    (Normal tt,
     {| db := Scenario.store_down; res_statusCode := 200; sent := None;
        console := [Raised (VStr "MongoNetworkError")];
        calls := [{| callee := "findById"; arguments := [VStr "1"] |}] |}).
Proof.
  exact (proj1 (rejected_lookup_is_only_logged
                  Mem.backend Scenario.get_one (fresh Scenario.store_down)
                  (Raised (VStr "MongoNetworkError")))
           (VStr "1") eq_refl eq_refl).
Defined.

(** ** Further properties of the controller *)

Section Coverage.

Context {DB : Type}.

Implicit Types (w : World DB) (req : Req) (Company : ModelObj DB) (B : Backend DB).

Ltac exec :=
  unfold invoke, ident, get_prop, try_catch, bind, ret, throw, lift,
    res_status, res_json, console_log.

(** Split on whatever the run branches on next. *)
Ltac branch :=
  match goal with
  | |- context [match ?x with _ => _ end] =>
      lazymatch x with
      | context [match _ with _ => _ end] => fail
      | _ => destruct x eqn:?
      end
  end; simpl.

Lemma falsy_values (v : JsVal) :
  truthy v = false <-> In v [VUndef; VNull; VBool false; VNum 0; VStr ""].
Proof.
  split.
  - destruct v as [| |b|n|s|xs|fs|t]; simpl; try discriminate; auto.
    + destruct b; [discriminate|auto].
    + destruct n; simpl; try discriminate. intros _. auto.
    + destruct s; simpl; try discriminate. intros _. do 4 right. now left.
  - simpl. intros [<-|[<-|[<-|[<-|[<-|[]]]]]]; reflexivity.
Qed.

(** X3. registerCompany answers "Company name is required" exactly when the
    companyName of the body is one of the falsy values undefined, null,
    false, 0 and the empty string; in that case the model is not called and
    the store is not touched, whatever the model object. *)
Theorem companyName_required_iff_falsy Company req w (v : JsVal) :
  prop (req_body req) "companyName" = Normal v ->
  sent w = None ->
  (sent (snd (registerCompany Company req w)) =
     Some {| statusCode := 400;
             payload := VObj [("message", VStr "Company name is required");
                              ("success", VBool false)] |}
   <-> In v [VUndef; VNull; VBool false; VNum 0; VStr ""])
  /\ (In v [VUndef; VNull; VBool false; VNum 0; VStr ""] ->
      db (snd (registerCompany Company req w)) = db w /\
      calls (snd (registerCompany Company req w)) = calls w).
Proof.
  intros Hp Hs.
  rewrite <- (falsy_values v).
  unfold registerCompany; exec. rewrite Hp. simpl.
  destruct (truthy v) eqn:Hv; simpl.
  - split; [|discriminate].
    split; [|discriminate].
    repeat branch; simpl; rewrite ?Hs; discriminate.
  - rewrite Hs. simpl. repeat split.
Qed.

(** X4. A request without a body (req.body undefined or null) gets no reply
    from registerCompany or updateCompany: the destructuring throws a
    TypeError, which is logged; no model call is made and the store and the
    response are left as they were. *)
Theorem missing_body_gets_no_reply Company req w :
  req_body req = VUndef \/ req_body req = VNull ->
  (exists msg : string,
      registerCompany Company req w =
        (Normal tt,
         {| db := db w; res_statusCode := res_statusCode w; sent := sent w;
            console := console w ++ [TypeError msg]; calls := calls w |}))
  /\ (exists msg : string,
         updateCompany Company req w =
           (Normal tt,
            {| db := db w; res_statusCode := res_statusCode w; sent := sent w;
               console := console w ++ [TypeError msg]; calls := calls w |})).
Proof.
  intros [Hb|Hb]; unfold registerCompany, updateCompany; exec; rewrite Hb; simpl;
    split; eexists; reflexivity.
Qed.

(** X5. registerCompany with a model object that has the member it calls:
    the lookup is by name alone.  When it resolves to a company the reply is
    400 "You cann't register same company" and create is not called; when it
    resolves to nothing and Company.create resolves, the reply is 201 with
    the created company and the store is the one create left; when create
    rejects, the error is logged and no reply is sent. *)
Theorem registerCompany_after_lookup Company req w
        (lookup : Method DB) (companyName found : JsVal) (d : DB) :
  Company "finOne" = Some lookup ->
  prop (req_body req) "companyName" = Normal companyName ->
  truthy companyName = true ->
  lookup [VObj [("name", companyName)]] (db w) = (Normal found, d) ->
  sent w = None ->
  (truthy found = true ->
   registerCompany Company req w =
     (Normal tt,
      {| db := d; res_statusCode := 400;
         sent := Some {| statusCode := 400;
                         payload := VObj [("message", VStr "You cann't register same company");
                                          ("success", VBool false)] |};
         console := console w;
         calls := calls w ++ [{| callee := "finOne";
                                 arguments := [VObj [("name", companyName)]] |}] |}))
  /\ (truthy found = false ->
      forall (make : Method DB) (r : Completion JsVal) (d' : DB),
        Company "create" = Some make ->
        make [VObj [("name", companyName); ("userId", req_id req)]] d = (r, d') ->
        registerCompany Company req w =
          (Normal tt,
           {| db := d';
              res_statusCode := match r with Normal _ => 201 | Throw _ => res_statusCode w end;
              sent := match r with
                      | Normal company =>
                          Some {| statusCode := 201;
                                  payload := VObj [("message", VStr "Company registered successfully");
                                                   ("company", company);
                                                   ("success", VBool true)] |}
                      | Throw _ => None
                      end;
              console := match r with
                         | Normal _ => console w
                         | Throw e => console w ++ [e]
                         end;
              calls := calls w ++
                       [{| callee := "finOne"; arguments := [VObj [("name", companyName)]] |};
                        {| callee := "create";
                           arguments := [VObj [("name", companyName);
                                               ("userId", req_id req)]] |}] |})).
Proof.
  intros Hm Hp Hv Hl Hs. split.
  - intros Hf. unfold registerCompany; exec. rewrite Hp, Hv. simpl.
    rewrite Hm. simpl. rewrite Hl. simpl. rewrite Hf. simpl. rewrite Hs. reflexivity.
  - intros Hf make r d' Hc Hmk. unfold registerCompany; exec. rewrite Hp, Hv. simpl.
    rewrite Hm. simpl. rewrite Hl. simpl. rewrite Hf. simpl.
    rewrite Hc. simpl. rewrite Hmk. rewrite <- app_assoc. simpl.
    destruct r; simpl; rewrite ?Hs; reflexivity.
Qed.

(** X6. What the handlers can reply, whatever the model object does: a reply
    of registerCompany is 400 with success false or 201 with success true, a
    reply of getCompanyById is 200 with success true or 404 with success
    false, a reply of getCompany can only be 404 with success false, and
    updateCompany sends none.  No handler ever answers with a 5xx status. *)
Theorem replies_of_the_controller Company req w :
  sent w = None ->
  (forall r : Response,
      sent (snd (registerCompany Company req w)) = Some r ->
      (statusCode r = 400 /\ prop (payload r) "success" = Normal (VBool false)) \/
      (statusCode r = 201 /\ prop (payload r) "success" = Normal (VBool true)))
  /\ (forall r : Response,
         sent (snd (getCompanyById Company req w)) = Some r ->
         (statusCode r = 200 /\ prop (payload r) "success" = Normal (VBool true)) \/
         (statusCode r = 404 /\ prop (payload r) "success" = Normal (VBool false)))
  /\ (forall r : Response,
         sent (snd (getCompany Company req w)) = Some r ->
         statusCode r = 404 /\ prop (payload r) "success" = Normal (VBool false))
  /\ sent (snd (updateCompany Company req w)) = None.
Proof.
  intros Hs. split; [|split; [|split]].
  - intros r. unfold registerCompany; exec. simpl.
    repeat branch; simpl; rewrite ?Hs; try discriminate;
      (intros [= <-]; simpl; auto) || (intro; congruence).
  - intros r. unfold getCompanyById; exec. simpl.
    repeat branch; simpl; rewrite ?Hs; try discriminate;
      (intros [= <-]; simpl; auto) || (intro; congruence).
  - intros r. unfold getCompany; exec. simpl.
    repeat branch; simpl; rewrite ?Hs; try discriminate;
      (intros [= <-]; simpl; auto) || (intro; congruence).
  - unfold updateCompany, updateCompany_args; exec. simpl.
    repeat branch; simpl; rewrite ?Hs; reflexivity || congruence.
Qed.

(** X7. getCompanyById looks at nothing but the id of the route: two
    requests with the same req.params run identically, whoever the subject
    req.id is and whatever body and cookies they carry.  The handler makes no
    ownership check: when the lookup resolves to a company, every subject
    that asks for that id is sent the company under 200. *)
Theorem getCompanyById_reads_only_the_route B req w (id : JsVal) (company : Doc) :
  prop (req_params req) "id" = Normal id ->
  findById B id (db w) = Normal (Some company) ->
  sent w = None ->
  forall req2 : Req,
    req_params req2 = req_params req ->
    (forall Company, getCompanyById Company req2 w = getCompanyById Company req w) /\
    sent (snd (getCompanyById (mongoose_model B) req2 w)) =
      Some {| statusCode := 200;
              payload := VObj [("company", VObj company); ("success", VBool true)] |}.
Proof.
  intros Hp Hf Hs req2 H. split.
  - intros Company. unfold getCompanyById. rewrite H. reflexivity.
  - unfold getCompanyById; exec. rewrite H, Hp. simpl. unfold arg. simpl.
    rewrite Hf. simpl. rewrite Hs. reflexivity.
Qed.

(** X8. The model calls a handler can make, whatever the model object does:
    registerCompany calls finOne at most once and create only after it, with
    the name of the body and the userId req.id; getCompanyById makes at most
    one findById, getCompany at most one find by req.id; updateCompany makes
    none.  No handler calls any other member of the model. *)
Theorem model_calls_of_the_controller Company req w :
  (calls (snd (registerCompany Company req w)) = calls w \/
   exists companyName : JsVal,
     prop (req_body req) "companyName" = Normal companyName /\
     (calls (snd (registerCompany Company req w)) =
        calls w ++ [{| callee := "finOne"; arguments := [VObj [("name", companyName)]] |}] \/
      calls (snd (registerCompany Company req w)) =
        calls w ++ [{| callee := "finOne"; arguments := [VObj [("name", companyName)]] |};
                    {| callee := "create";
                       arguments := [VObj [("name", companyName);
                                           ("userId", req_id req)]] |}]))
  /\ (calls (snd (getCompanyById Company req w)) = calls w \/
      exists id : JsVal,
        prop (req_params req) "id" = Normal id /\
        calls (snd (getCompanyById Company req w)) =
          calls w ++ [{| callee := "findById"; arguments := [id] |}])
  /\ (calls (snd (getCompany Company req w)) = calls w \/
      calls (snd (getCompany Company req w)) =
        calls w ++ [{| callee := "find"; arguments := [VObj [("userId", req_id req)]] |}])
  /\ calls (snd (updateCompany Company req w)) = calls w.
Proof.
  split; [|split; [|split]].
  - unfold registerCompany; exec. simpl.
    destruct (prop (req_body req) "companyName") as [cn|e]; simpl; [|now left].
    destruct (truthy cn); simpl; [|destruct (sent w); now left].
    destruct (Company "finOne") as [m|]; simpl; [|now left].
    right. exists cn. split; [reflexivity|].
    destruct (m _ _) as [[v|e] d]; simpl; [|now left].
    destruct (truthy v); simpl; [destruct (sent w); now left|].
    destruct (Company "create") as [m'|]; simpl; [|now left].
    right. rewrite <- app_assoc. simpl.
    destruct (m' _ _) as [[v'|e'] d']; simpl; [destruct (sent w)|]; reflexivity.
  - unfold getCompanyById; exec. simpl.
    destruct (prop (req_params req) "id") as [id|e]; simpl; [|now left].
    destruct (Company "findById") as [m|]; simpl; [|now left].
    right. exists id. split; [reflexivity|].
    destruct (m _ _) as [[v|e] d]; simpl; [|reflexivity].
    destruct (truthy v); simpl; destruct (sent w); reflexivity.
  - unfold getCompany; exec. simpl.
    destruct (Company "find") as [m|]; simpl; [|now left].
    right.
    destruct (m _ _) as [[v|e] d]; simpl; [|reflexivity].
    destruct (truthy v); simpl; [reflexivity|destruct (sent w); reflexivity].
  - unfold updateCompany, updateCompany_args; exec. simpl.
    repeat branch; reflexivity.
Qed.

(** *** The gate in front of the controllers *)

(** The gate on a request it admits: next() with the stamped request, and
    the world as it was. *)
Lemma gate_admits (jwt_verify : JsVal -> JsVal -> Completion JsVal) (SECRET_KEY : JsVal)
      req req' w :
  admitted jwt_verify SECRET_KEY req req' ->
  isAuthenticated jwt_verify SECRET_KEY req w = (Normal (Next req'), w).
Proof.
  intros (token & decode & userId & Ht & Htt & Hv & Hd & Hu & ->).
  unfold isAuthenticated; exec. rewrite Ht. simpl. rewrite Htt. simpl.
  rewrite Hv. simpl. rewrite Hd. simpl. rewrite Hu. reflexivity.
Qed.

(** Every route of the three tables is the gate followed by one controller. *)
Lemma routes_are_guarded
      (jwt_verify : JsVal -> JsVal -> Completion JsVal) (SECRET_KEY : JsVal)
      (h_registerCompany h_updateCompany h_getCompanyById h_getCompany : Req -> M DB unit)
      (h_postjob h_getAdminJobs h_getJobById h_getAllJobs : Req -> M DB unit)
      (h_applyJob h_getAppliedJobs h_getApplicants h_updateStatus : Req -> M DB unit)
      (r : Route DB) :
  In r (company_router jwt_verify SECRET_KEY
          h_registerCompany h_updateCompany h_getCompanyById h_getCompany
        ++ application_router jwt_verify SECRET_KEY
             h_applyJob h_getAppliedJobs h_getApplicants h_updateStatus
        ++ job_router jwt_verify SECRET_KEY
             h_postjob h_getAdminJobs h_getJobById h_getAllJobs) ->
  exists (name : string) (h : Req -> M DB unit),
    stack r = [gate jwt_verify SECRET_KEY; controller name h].
Proof.
  intros Hin. simpl in Hin.
  repeat (destruct Hin as [<-|Hin]; [eexists; eexists; reflexivity|]).
  destruct Hin.
Qed.

(** X9. On every route of the company, application and job tables, a request
    whose token cookie is missing (or is any falsy value) stops at the gate:
    the reply is 401 "user not authenticated", the controller is not entered,
    and the store and the record of model calls are untouched. *)
Theorem missing_token_stops_at_the_gate
        (jwt_verify : JsVal -> JsVal -> Completion JsVal) (SECRET_KEY : JsVal)
        (h_registerCompany h_updateCompany h_getCompanyById h_getCompany : Req -> M DB unit)
        (h_postjob h_getAdminJobs h_getJobById h_getAllJobs : Req -> M DB unit)
        (h_applyJob h_getAppliedJobs h_getApplicants h_updateStatus : Req -> M DB unit)
        (r : Route DB) req w (token : JsVal) :
  In r (company_router jwt_verify SECRET_KEY
          h_registerCompany h_updateCompany h_getCompanyById h_getCompany
        ++ application_router jwt_verify SECRET_KEY
             h_applyJob h_getAppliedJobs h_getApplicants h_updateStatus
        ++ job_router jwt_verify SECRET_KEY
             h_postjob h_getAdminJobs h_getJobById h_getAllJobs) ->
  prop (req_cookies req) "token" = Normal token ->
  truthy token = false ->
  sent w = None ->
  dispatch (stack r) req w =
    ([("isAuthenticated", req)],
     (Normal tt,
      {| db := db w; res_statusCode := 401;
         sent := Some {| statusCode := 401;
                         payload := VObj [("message", VStr "user not authenticated");
                                          ("success", VBool false)] |};
         console := console w; calls := calls w |})).
Proof.
  intros Hin Ht Hf Hs.
  destruct (routes_are_guarded _ _ _ _ _ _ _ _ _ _ _ _ _ _ _ Hin) as (name & h & ->).
  simpl. unfold isAuthenticated; exec. rewrite Ht. simpl. rewrite Hf. simpl.
  rewrite Hs. reflexivity.
Qed.

(** X10. On every route of the three tables, a request the gate admits is
    handled exactly as the route's controller handles the request stamped
    with req.id, from the world the request arrived in: the gate leaves no
    trace, both layers are entered in order, and the outcome is the
    controller's. *)
Theorem admitted_request_is_the_controllers
        (jwt_verify : JsVal -> JsVal -> Completion JsVal) (SECRET_KEY : JsVal)
        (h_registerCompany h_updateCompany h_getCompanyById h_getCompany : Req -> M DB unit)
        (h_postjob h_getAdminJobs h_getJobById h_getAllJobs : Req -> M DB unit)
        (h_applyJob h_getAppliedJobs h_getApplicants h_updateStatus : Req -> M DB unit)
        (r : Route DB) req req' w :
  In r (company_router jwt_verify SECRET_KEY
          h_registerCompany h_updateCompany h_getCompanyById h_getCompany
        ++ application_router jwt_verify SECRET_KEY
             h_applyJob h_getAppliedJobs h_getApplicants h_updateStatus
        ++ job_router jwt_verify SECRET_KEY
             h_postjob h_getAdminJobs h_getJobById h_getAllJobs) ->
  admitted jwt_verify SECRET_KEY req req' ->
  exists (name : string) (h : Req -> M DB unit),
    stack r = [gate jwt_verify SECRET_KEY; controller name h] /\
    dispatch (stack r) req w = ([("isAuthenticated", req); (name, req')], h req' w).
Proof.
  intros Hin Hadm.
  destruct (routes_are_guarded _ _ _ _ _ _ _ _ _ _ _ _ _ _ _ Hin) as (name & h & Hst).
  exists name, h. split; [exact Hst|]. rewrite Hst. simpl.
  rewrite (gate_admits _ _ _ _ w Hadm). simpl.
  unfold endpoint, bind, ret.
  destruct (h req' w) as [[[]|e] w']; reflexivity.
Qed.

End Coverage.

(** ** The further properties at concrete requests *)

(** A body whose companyName is the empty string. *)
Lemma companyName_required_iff_falsy_witness :
  sent (snd (registerCompany Scenario.Company Cases.register_empty_name
               (fresh Scenario.one_company))) =
    Some {| statusCode := 400;
            payload := VObj [("message", VStr "Company name is required");
                             ("success", VBool false)] |}.
Proof.
  exact (proj2 (proj1 (companyName_required_iff_falsy
                         Scenario.Company Cases.register_empty_name
                         (fresh Scenario.one_company) (VStr "") eq_refl eq_refl))
           (or_intror (or_intror (or_intror (or_intror (or_introl eq_refl)))))).
Defined.

(** A request that reaches the handlers with req.body undefined. *)
Lemma missing_body_gets_no_reply_witness :
  (exists msg : string,
      registerCompany Scenario.Company Cases.without_body (fresh Scenario.one_company) =
        (Normal tt,
         {| db := Scenario.one_company; res_statusCode := 200; sent := None;
            console := [TypeError msg]; calls := [] |}))
  /\ (exists msg : string,
         updateCompany Scenario.Company Cases.without_body (fresh Scenario.one_company) =
           (Normal tt,
            {| db := Scenario.one_company; res_statusCode := 200; sent := None;
               console := [TypeError msg]; calls := [] |})).
Proof.
  exact (missing_body_gets_no_reply
           Scenario.Company Cases.without_body (fresh Scenario.one_company)
           (or_introl eq_refl)).
Defined.

(** Against a model that has finOne: Acme, which the store holds, and
    Globex, which it does not. *)
Lemma registerCompany_after_lookup_witness :
  registerCompany Scenario.Company_with_finOne Scenario.register_acme
    (fresh Scenario.one_company) =
    (Normal tt,
     {| db := Scenario.one_company; res_statusCode := 400;
        sent := Some {| statusCode := 400;
                        payload := VObj [("message", VStr "You cann't register same company");
                                         ("success", VBool false)] |};
        console := [];
        calls := [{| callee := "finOne"; arguments := [VObj [("name", VStr "Acme")]] |}] |})
  /\ registerCompany Scenario.Company_with_finOne Scenario.register_globex
       (fresh Scenario.one_company) =
    (Normal tt,
     {| db := {| Mem.docs := [Scenario.acme;
                              [("_id", VStr "2"); ("name", VStr "Globex");
                               ("userId", VStr "u1")]];
                 Mem.online := true; Mem.serial := 3 |};
        res_statusCode := 201;
        sent := Some {| statusCode := 201;
                        payload := VObj [("message", VStr "Company registered successfully");
                                         ("company", VObj [("_id", VStr "2");
                                                           ("name", VStr "Globex");
                                                           ("userId", VStr "u1")]);
                                         ("success", VBool true)] |};
        console := [];
        calls := [{| callee := "finOne"; arguments := [VObj [("name", VStr "Globex")]] |};
                  {| callee := "create";
                     arguments := [VObj [("name", VStr "Globex"); ("userId", VStr "u1")]] |}] |}).
Proof.
  split.
  - exact (proj1 (registerCompany_after_lookup
                    Scenario.Company_with_finOne Scenario.register_acme
                    (fresh Scenario.one_company)
                    (fun args d => (cmap doc_or_null (Mem.mem_findOne (arg 0 args) d), d))
                    (VStr "Acme") (VObj Scenario.acme) Scenario.one_company
                    eq_refl eq_refl eq_refl eq_refl eq_refl)
             eq_refl).
  - exact (proj2 (registerCompany_after_lookup
                    Scenario.Company_with_finOne Scenario.register_globex
                    (fresh Scenario.one_company)
                    (fun args d => (cmap doc_or_null (Mem.mem_findOne (arg 0 args) d), d))
                    (VStr "Globex") VNull Scenario.one_company
                    eq_refl eq_refl eq_refl eq_refl eq_refl)
             eq_refl
             (fun args d => let (r, d') := create Mem.backend (arg 0 args) d in (cmap VObj r, d'))
             (Normal (VObj [("_id", VStr "2"); ("name", VStr "Globex"); ("userId", VStr "u1")]))
             {| Mem.docs := [Scenario.acme;
                             [("_id", VStr "2"); ("name", VStr "Globex");
                              ("userId", VStr "u1")]];
                Mem.online := true; Mem.serial := 3 |}
             eq_refl eq_refl).
Defined.

(** The reply to a lookup of the stored id is one of the two the theorem
    allows getCompanyById. *)
Lemma replies_of_the_controller_witness :
  let r := {| statusCode := 200;
              payload := VObj [("company", VObj Scenario.acme); ("success", VBool true)] |} in
  (statusCode r = 200 /\ prop (payload r) "success" = Normal (VBool true)) \/
  (statusCode r = 404 /\ prop (payload r) "success" = Normal (VBool false)).
Proof.
  exact (proj1 (proj2 (replies_of_the_controller
                         Scenario.Company Scenario.get_one (fresh Scenario.one_company)
                         eq_refl))
           {| statusCode := 200;
              payload := VObj [("company", VObj Scenario.acme); ("success", VBool true)] |}
           eq_refl).
Defined.

(** Subject u2 asks for the company of subject u1. *)
Lemma getCompanyById_reads_only_the_route_witness :
  sent (snd (getCompanyById Scenario.Company Cases.get_one_as_u2
               (fresh Scenario.one_company))) =
    Some {| statusCode := 200;
            payload := VObj [("company", VObj Scenario.acme); ("success", VBool true)] |}.
Proof.
  exact (proj2 (getCompanyById_reads_only_the_route
                  Mem.backend Scenario.get_one (fresh Scenario.one_company)
                  (VStr "1") Scenario.acme eq_refl eq_refl eq_refl
                  Cases.get_one_as_u2 eq_refl)).
Defined.

(** POST /register without a token cookie. *)
Lemma missing_token_stops_at_the_gate_witness :
  dispatch
    [gate Scenario.verify (VStr "s3cret");
     controller "registerCompany" (registerCompany Scenario.Company)]
    Cases.anonymous (fresh Scenario.one_company) =
    ([("isAuthenticated", Cases.anonymous)],
     (Normal tt,
      {| db := Scenario.one_company; res_statusCode := 401;
         sent := Some {| statusCode := 401;
                         payload := VObj [("message", VStr "user not authenticated");
                                          ("success", VBool false)] |};
         console := []; calls := [] |})).
Proof.
  exact (missing_token_stops_at_the_gate
           Scenario.verify (VStr "s3cret")
           (registerCompany Scenario.Company) (updateCompany Scenario.Company)
           (getCompanyById Scenario.Company) (getCompany Scenario.Company)
           Scenario.nothing Scenario.nothing Scenario.nothing Scenario.nothing
           Scenario.nothing Scenario.nothing Scenario.nothing Scenario.nothing
           (on POST "/register"
               [gate Scenario.verify (VStr "s3cret");
                controller "registerCompany" (registerCompany Scenario.Company)])
           Cases.anonymous (fresh Scenario.one_company) VUndef
           (or_introl eq_refl) eq_refl eq_refl eq_refl).
Defined.

(** POST /get/:id with the cookie of u1: the outcome is getCompanyById's. *)
Lemma admitted_request_is_the_controllers_witness :
  exists (name : string) (h : Req -> M Mem.Store unit),
    [gate Scenario.verify (VStr "s3cret");
     controller "getCompanyById" (getCompanyById Scenario.Company)] =
    [gate Scenario.verify (VStr "s3cret"); controller name h] /\
    dispatch
      [gate Scenario.verify (VStr "s3cret");
       controller "getCompanyById" (getCompanyById Scenario.Company)]
      (Scenario.incoming (VObj []) (VObj [("id", VStr "1")]))
      (fresh Scenario.one_company) =
      ([("isAuthenticated", Scenario.incoming (VObj []) (VObj [("id", VStr "1")]));
        (name, Scenario.get_one)],
       h Scenario.get_one (fresh Scenario.one_company)).
Proof.
  refine (admitted_request_is_the_controllers
            Scenario.verify (VStr "s3cret")
            (registerCompany Scenario.Company) (updateCompany Scenario.Company)
            (getCompanyById Scenario.Company) (getCompany Scenario.Company)
            Scenario.nothing Scenario.nothing Scenario.nothing Scenario.nothing
            Scenario.nothing Scenario.nothing Scenario.nothing Scenario.nothing
            (on POST "/get/:id"
                [gate Scenario.verify (VStr "s3cret");
                 controller "getCompanyById" (getCompanyById Scenario.Company)])
            (Scenario.incoming (VObj []) (VObj [("id", VStr "1")]))
            Scenario.get_one (fresh Scenario.one_company)
            (or_intror (or_intror (or_introl eq_refl))) _).
  exists (VStr "token-of-u1"),
    (VObj [("userId", VStr "u1"); ("iat", VNum 1704876800); ("exp", VNum 1704963200)]),
    (VStr "u1").
  repeat split.
Defined.
